(** * mc: the service-account and user-disable admin commands

    A shallow embedding of [cmd/admin-user-svcacct-add.go] and of the
    [mc admin user disable] command: the message type [svcAcctMessage] with
    its two renderers, and the two command handlers as programs in a small
    monad that logs every call to a collaborator and stops at the first
    fatal error. *)

From Stdlib Require Import Ascii String.
From stdpp Require Import base strings list gmap.

Local Open Scope string_scope.

(** ** Strings *)

(** The line feed, Go's ["\n"]. *)
Definition nl : string := String "010"%char EmptyString.

(** [strings.Join(elems, sep)]. *)
Definition strings_Join (elems : list string) (sep : string) : string :=
  String.concat sep elems.

(** ** The message type *)

(** [type svcAcctMessage struct]: [op] is unexported, the other fields carry
    the JSON tags written next to them in the source. *)
Record svcAcctMessage := {
  op            : string;
  Status        : string;       (* json:"status" *)
  AccessKey     : string;       (* json:"accessKey,omitempty" *)
  SecretKey     : string;       (* json:"secretKey,omitempty" *)
  ParentUser    : string;       (* json:"parentUser,omitempty" *)
  ImpliedPolicy : bool;         (* json:"impliedPolicy,omitempty" *)
  Policy        : string;       (* json:"policy,omitempty" *)
  AccountStatus : string;       (* json:"accountStatus,omitempty" *)
  MemberOf      : list string;  (* json:"memberOf,omitempty" *)
}.

(** The assignment [u.Status = s]. *)
Definition set_Status (s : string) (u : svcAcctMessage) : svcAcctMessage :=
  {| op := op u; Status := s; AccessKey := AccessKey u;
     SecretKey := SecretKey u; ParentUser := ParentUser u;
     ImpliedPolicy := ImpliedPolicy u; Policy := Policy u;
     AccountStatus := AccountStatus u; MemberOf := MemberOf u |}.

Definition accessFieldMaxLen : Z := 20.

(** ** The console and the table printer

    [console.Colorize] belongs to the console package and
    [newPrettyTable(..).buildRow] to the table printer; neither is part of
    the two files. The renderer is written over an interface that provides
    them. *)

(** A column of a pretty table, [Field{tag, width}]. *)
Record Field := { Field_tag : string; Field_maxLen : Z }.

Record PrettyTable := { cols : list Field; separator : string }.

Definition newPrettyTable (sep : string) (fields : list Field) : PrettyTable :=
  {| cols := fields; separator := sep |}.

Class Console := {
  (** [console.Colorize(tag, data)] *)
  Colorize : string -> string -> string;
  (** [t.buildRow(contents...)] *)
  buildRow : PrettyTable -> list string -> string;
}.

(** The table of the [ls] case: one column, [accessFieldMaxLen] wide. *)
Definition lsTable : PrettyTable :=
  newPrettyTable "  " [ {| Field_tag := "AccessKey"; Field_maxLen := accessFieldMaxLen |} ].

(** ** Human rendering *)

(** [func (u svcAcctMessage) String() string]. [fmt.Sprintf] with a single
    [%s] verb and a string argument is concatenation. *)
Definition svcAcctMessage_String `{Console} (u : svcAcctMessage) : string :=
  if op u =? "ls" then
    buildRow lsTable [AccessKey u]
  else if op u =? "info" then
    let policyField := if ImpliedPolicy u then "implied" else "embedded" in
    Colorize "UserMessage" (strings_Join
      [ "AccessKey: " +:+ AccessKey u;
        "ParentUser: " +:+ ParentUser u;
        "Status: " +:+ AccountStatus u;
        "Policy: " +:+ policyField ] nl)
  else if op u =? "rm" then
    Colorize "UserMessage" ("Removed service account `" +:+ AccessKey u +:+ "` successfully.")
  else if op u =? "disable" then
    Colorize "UserMessage" ("Disabled service account `" +:+ AccessKey u +:+ "` successfully.")
  else if op u =? "enable" then
    Colorize "UserMessage" ("Enabled service account `" +:+ AccessKey u +:+ "` successfully.")
  else if op u =? "add" then
    Colorize "UserMessage"
      ("Access Key: " +:+ AccessKey u +:+ nl +:+ "Secret Key: " +:+ SecretKey u)
  else if op u =? "set" then
    Colorize "UserMessage" ("Edited service account `" +:+ AccessKey u +:+ "` successfully.")
  else "".

(** The tags that have a case in the switch. *)
Definition knownOps : list string :=
  ["ls"; "info"; "rm"; "disable"; "enable"; "add"; "set"].

(** ** JSON rendering *)

(** The values the fields of the struct marshal to. *)
Inductive jvalue :=
| JString (s : string)
| JBool (b : bool)
| JStrings (l : list string).

(** A JSON object, its members in the order they are written. *)
Definition jobject := list (string * jvalue).

(** The encoder's emptiness test behind [omitempty]: the empty string,
    [false], and a slice of length 0. *)
Definition isEmptyValue (v : jvalue) : bool :=
  match v with
  | JString s => s =? ""
  | JBool b => negb b
  | JStrings l => match l with [] => true | _ => false end
  end.

(** A member tagged [omitempty]. *)
Definition omitempty (key : string) (v : jvalue) : jobject :=
  if isEmptyValue v then [] else [(key, v)].

(** What the encoder makes of the struct: [op] is unexported and skipped,
    [status] is always written, every other member only when non-empty.
    A member holds the value of its field as the handler set it: what the
    encoder then does to the text of a string (escapes, the replacement of
    bytes that are not UTF-8) is the encoder's and is not part of the
    document. *)
Definition marshal (u : svcAcctMessage) : jobject :=
  ([("status", JString (Status u))]
  ++ omitempty "accessKey" (JString (AccessKey u))
  ++ omitempty "secretKey" (JString (SecretKey u))
  ++ omitempty "parentUser" (JString (ParentUser u))
  ++ omitempty "impliedPolicy" (JBool (ImpliedPolicy u))
  ++ omitempty "policy" (JString (Policy u))
  ++ omitempty "accountStatus" (JString (AccountStatus u))
  ++ omitempty "memberOf" (JStrings (MemberOf u)))%list.

(** The receiver of both methods is passed by value. A call [m.f()] runs in
    a frame that holds the caller's variable [m] and the method's own [u],
    which starts as a copy of [m]. *)
Record Frame := { caller_m : svcAcctMessage; local_u : svcAcctMessage }.

Definition enter (m : svcAcctMessage) : Frame :=
  {| caller_m := m; local_u := m |}.

(** The body of [func (u svcAcctMessage) JSON() string]: assign
    [u.Status], marshal [u]. The result is the document that is written
    out; its indentation and escaping are the encoder's. Strings, booleans
    and string slices always encode, so the [fatalIf] on the encoder's error
    never stops the method. *)
Definition JSON_body (f : Frame) : Frame * jobject :=
  let f1 := {| caller_m := caller_m f; local_u := set_Status "success" (local_u f) |} in
  (f1, marshal (local_u f1)).

(** The body of [String]: it only reads [u]. *)
Definition String_body `{Console} (f : Frame) : Frame * string :=
  (f, svcAcctMessage_String (local_u f)).

Definition svcAcctMessage_JSON (m : svcAcctMessage) : jobject :=
  snd (JSON_body (enter m)).

(** Member lookup in a document. *)
Fixpoint member (key : string) (o : jobject) : option jvalue :=
  match o with
  | [] => None
  | (k, v) :: rest => if k =? key then Some v else member key rest
  end.

Definition hasKey (key : string) (o : jobject) : bool :=
  match member key o with Some _ => true | None => false end.

(** ** Errors and process exits *)

(** A Go [error], by its text; [nil] is [None] in an [option error]. *)
Definition error := string.

(** Modelled from the spec: the probe package is outside the two files. A
    probe error is the traceable wrapper around a failure: the original
    error and the arguments recorded with [Trace] for diagnosis. Wrapping
    [nil] gives [nil], and tracing [nil] gives [nil]. *)
Record probeError := { cause : error; callTrace : list string }.

Definition probe_NewError (e : option error) : option probeError :=
  match e with
  | Some e => Some {| cause := e; callTrace := [] |}
  | None => None
  end.

Definition probe_Trace (args : list string) (e : option probeError) : option probeError :=
  match e with
  | Some e => Some {| cause := cause e; callTrace := (callTrace e ++ args)%list |}
  | None => None
  end.

(** Modelled from the spec: [errInvalidArgument] is declared outside the two
    files; it is the (non-nil) usage error signalled on an argument
    mismatch. *)
Definition errInvalidArgument : option probeError :=
  Some {| cause := "Invalid arguments provided"; callTrace := [] |}.

(** The two ways a handler ends the process: [fatalIf] with a non-nil
    error, and [cli.ShowCommandHelpAndExit(ctx, command, code)]. *)
Inductive Exit :=
| Fatal (e : probeError) (msg : string)
| HelpAndExit (command : string) (code : Z).

(** Whether the exit prints the command's help. *)
Definition printsHelp (e : Exit) : bool :=
  match e with
  | HelpAndExit _ _ => true
  | Fatal _ _ => false
  end.

(** Modelled from the spec: the fatal-error helper is outside the two
    files; by the spec every fatal error ends the process with a non-zero
    exit status. [cli.ShowCommandHelpAndExit] ends it with the code it is
    given. *)
Definition exitsNonZero (e : Exit) : bool :=
  match e with
  | Fatal _ _ => true
  | HelpAndExit _ code => negb (code =? 0)%Z
  end.

(** ** Collaborators *)

Inductive madmin_AccountStatus := madmin_AccountEnabled | madmin_AccountDisabled.

(** [madmin.AddServiceAccountReq]; a nil [Policy] is [None]. *)
Record AddServiceAccountReq := {
  req_Policy     : option (list Byte.byte);
  req_AccessKey  : string;
  req_SecretKey  : string;
  req_TargetUser : string;
}.

(** The two fields of the returned credentials that the handler reads. *)
Record Credentials := { creds_AccessKey : string; creds_SecretKey : string }.

(** The admin client: the remote operations the two handlers invoke. A
    result is [inl] the error or [inr] the value. *)
Record AdminClient := {
  AddServiceAccount : AddServiceAccountReq -> error + Credentials;
  SetUserStatus : string -> madmin_AccountStatus -> option error;
}.

(** Everything outside the process that a handler consults. *)
Record World := {
  newAdminClient : string -> probeError + AdminClient;
  ReadFile : string -> error + list Byte.byte;
  ParseConfig : list Byte.byte -> option error;
}.

Inductive color_Attribute :=
| FgBlack | FgRed | FgGreen | FgYellow | FgBlue | FgMagenta | FgCyan | FgWhite.

(** Modelled from the spec: the type [userMessage] that the disable handler
    fills in is declared outside the two files. The spec knows one Outcome
    Message for every account operation, with one renderer that branches on
    the operation tag; [userMessage] is that message. *)
Definition userMessage : Type := svcAcctMessage.

Definition userMessage_String `{Console} (u : userMessage) : string :=
  svcAcctMessage_String u.

(** One entry of the log for each call that leaves the handler. *)
Inductive Event :=
| CallNewAdminClient (aliasedURL : string)
| CallReadFile (path : string)
| CallParseConfig (buf : list Byte.byte)
| CallAddServiceAccount (opts : AddServiceAccountReq)
| CallSetUserStatus (user : string) (status : madmin_AccountStatus)
| CallSetColor (tag : string) (c : color_Attribute)
| CallPrintMsg (m : svcAcctMessage).

(** Calls that reach the remote cluster. *)
Definition isRemoteCall (ev : Event) : bool :=
  match ev with
  | CallAddServiceAccount _ | CallSetUserStatus _ _ => true
  | _ => false
  end.

(** ** The handler monad: a log of calls, and an early exit *)

Definition Cmd (A : Type) : Type := list Event * (Exit + A).

#[global] Instance Cmd_ret : MRet Cmd := fun A a => ([], inr a).

#[global] Instance Cmd_bind : MBind Cmd := fun A B k m =>
  match m with
  | (t, inl e) => (t, inl e)
  | (t, inr a) => let '(t', r) := k a in ((t ++ t')%list, r)
  end.

(** A call to a collaborator: logged, then its result. *)
Definition call {A} (ev : Event) (result : A) : Cmd A := ([ev], inr result).

Definition exit {A} (e : Exit) : Cmd A := ([], inl e).

(** Modelled from the spec: [fatalIf] is the global fatal-error helper,
    outside the two files: on a non-nil error the process ends there, on
    nil the handler goes on. *)
Definition fatalIf (err : option probeError) (msg : string) : Cmd unit :=
  match err with
  | Some e => exit (Fatal e msg)
  | None => mret tt
  end.

(** [v, e := f(..)] followed by [fatalIf(e, msg)]: on nil the handler goes
    on with [v]. *)
Definition orFatal {A} (r : probeError + A) (msg : string) : Cmd A :=
  match r with
  | inl e => exit (Fatal e msg)
  | inr v => mret v
  end.

(** [probe.NewError(e)] on the error of a result. *)
Definition result_NewError {A} (r : error + A) : probeError + A :=
  match r with
  | inl e => inl {| cause := e; callTrace := [] |}
  | inr v => inr v
  end.

(** [.Trace(args...)] on the error of a result. *)
Definition result_Trace {A} (args : list string) (r : probeError + A) : probeError + A :=
  match r with
  | inl e => inl {| cause := cause e; callTrace := (callTrace e ++ args)%list |}
  | inr v => inr v
  end.

(** [printMsg(msg)]: the message is handed to the output renderer. *)
Definition printMsg (m : svcAcctMessage) : Cmd unit := call (CallPrintMsg m) tt.

(** ** The command line *)

(** [cli.Context]: the positional arguments and the string flags set. *)
Record Context := { Args : list string; flags : gmap string string }.

(** [ctx.String(name)]: the empty string when the flag is not set. *)
Definition ctx_String (ctx : Context) (name : string) : string :=
  default "" (flags ctx !! name).

(** [args.Get(n)]: the empty string out of range. *)
Definition Args_Get (args : list string) (n : nat) : string :=
  default "" (args !! n).

(** [args.Tail()] *)
Definition Args_Tail (args : list string) : list string :=
  if (2 <=? length args)%nat then drop 1 args else [].

(** ** svcacct add *)

Definition checkAdminUserSvcAcctAddSyntax (ctx : Context) : Cmd unit :=
  if negb (length (Args ctx) =? 2)%nat then
    fatalIf (probe_Trace (Args_Tail (Args ctx)) errInvalidArgument)
      "Incorrect number of arguments for user svcacct add command."
  else mret tt.

(** The message of a successful add. *)
Definition svcAcctAddMessage (creds : Credentials) : svcAcctMessage :=
  {| op := "add"; Status := "";
     AccessKey := creds_AccessKey creds;
     SecretKey := creds_SecretKey creds;
     ParentUser := ""; ImpliedPolicy := false; Policy := "";
     AccountStatus := "enabled"; MemberOf := [] |}.

Definition mainAdminUserSvcAcctAdd (w : World) (ctx : Context) : Cmd unit :=
  checkAdminUserSvcAcctAddSyntax ctx ;;
  let args := Args ctx in
  let aliasedURL := Args_Get args 0 in
  let user := Args_Get args 1 in
  let accessKey := ctx_String ctx "access-key" in
  let secretKey := ctx_String ctx "secret-key" in
  let policyPath := ctx_String ctx "policy" in
  r ← call (CallNewAdminClient aliasedURL) (newAdminClient w aliasedURL) ;
  client ← orFatal r "Unable to initialize admin connection." ;
  buf ← (if negb (policyPath =? "") then
           r ← call (CallReadFile policyPath) (ReadFile w policyPath) ;
           buf ← orFatal (result_NewError r) "Unable to open the policy document." ;
           e ← call (CallParseConfig buf) (ParseConfig w buf) ;
           fatalIf (probe_NewError e) "Unable to parse the policy document." ;;
           mret (Some buf)
         else mret None) ;
  let opts := {| req_Policy := buf; req_AccessKey := accessKey;
                 req_SecretKey := secretKey; req_TargetUser := user |} in
  r ← call (CallAddServiceAccount opts) (AddServiceAccount client opts) ;
  creds ← orFatal (result_Trace args (result_NewError r)) "Unable to add a new service account" ;
  printMsg (svcAcctAddMessage creds) ;;
  mret tt.

(** ** user disable *)

Definition checkAdminUserDisableSyntax (ctx : Context) : Cmd unit :=
  if negb (length (Args ctx) =? 2)%nat then exit (HelpAndExit "disable" 1)
  else mret tt.

(** The message of a successful disable, [userMessage{op: "disable",
    AccessKey: args.Get(1)}]. *)
Definition userDisableMessage (account : string) : userMessage :=
  {| op := "disable"; Status := ""; AccessKey := account; SecretKey := "";
     ParentUser := ""; ImpliedPolicy := false; Policy := "";
     AccountStatus := ""; MemberOf := [] |}.

Definition mainAdminUserDisable (w : World) (ctx : Context) : Cmd unit :=
  checkAdminUserDisableSyntax ctx ;;
  call (CallSetColor "UserMessage" FgGreen) tt ;;
  let args := Args ctx in
  let aliasedURL := Args_Get args 0 in
  r ← call (CallNewAdminClient aliasedURL) (newAdminClient w aliasedURL) ;
  client ← orFatal r "Unable to initialize admin connection." ;
  e ← call (CallSetUserStatus (Args_Get args 1) madmin_AccountDisabled)
         (SetUserStatus client (Args_Get args 1) madmin_AccountDisabled) ;
  fatalIf (probe_Trace args (probe_NewError e)) "Unable to disable user" ;;
  printMsg (userDisableMessage (Args_Get args 1)) ;;
  mret tt.

(** ** A sample console

    A console to run the renderers on concrete messages: no colour, so text
    is passed through unchanged, and a row is its cells cut or padded to
    the width of their columns. *)

Fixpoint spaces (n : nat) : string :=
  match n with
  | O => ""
  | S n' => String " "%char (spaces n')
  end.

(** Modelled from the spec: the table printer is outside the two files. A
    row formats each cell into the fixed width of its column: contents
    longer than the column are cut and end in three dots, shorter contents
    are padded with spaces on the right. *)
Definition fitCell (width : Z) (content : string) : string :=
  if (width <? 0)%Z then content
  else
    let n := Z.to_nat width in
    if (n <? String.length content)%nat
    then String.substring 0 (n - 3) content +:+ "..."
    else content +:+ spaces (n - String.length content).

Fixpoint plainRow (fields : list Field) (sep : string) (contents : list string) : string :=
  match fields, contents with
  | f :: fields', c :: contents' =>
      fitCell (Field_maxLen f) c
      +:+ (match fields', contents' with _ :: _, _ :: _ => sep | _, _ => "" end)
      +:+ plainRow fields' sep contents'
  | _, _ => ""
  end.

Definition plainConsole : Console :=
  {| Colorize := fun _ data => data;
     buildRow := fun t contents => plainRow (cols t) (separator t) contents |}.

(** ** Sample runs *)

Definition exampleCreds : Credentials :=
  {| creds_AccessKey := "AKIAEXAMPLE"; creds_SecretKey := "s3cr3t" |}.

Definition exampleClient : AdminClient :=
  {| AddServiceAccount := fun _ => inr exampleCreds;
     SetUserStatus := fun _ _ => None |}.

(** A world where the connection and the remote calls succeed and the
    policy file reads but does not parse. *)
Definition exampleWorld : World :=
  {| newAdminClient := fun _ => inr exampleClient;
     ReadFile := fun _ => inr [Byte.x7b];
     ParseConfig := fun _ => Some "unexpected end of JSON input" |}.

Definition ctxPlain : Context :=
  {| Args := ["myminio"; "foobar"]; flags := ∅ |}.

Definition ctxKeys : Context :=
  {| Args := ["myminio"; "foobar"];
     flags := <["access-key" := "myaccess"]> (<["secret-key" := "mysecret"]> ∅) |}.

Definition ctxBadPolicy : Context :=
  {| Args := ["myminio"; "foobar"]; flags := <["policy" := "policy.json"]> ∅ |}.

Definition ctxNoArgs : Context := {| Args := []; flags := ∅ |}.

Definition lsExample : svcAcctMessage :=
  {| op := "ls"; Status := ""; AccessKey := "AKIAEXAMPLE"; SecretKey := "";
     ParentUser := ""; ImpliedPolicy := false; Policy := "";
     AccountStatus := ""; MemberOf := [] |}.

(** The exit a run ended with, if it did not return. *)
Definition exitOf {A} (run : Cmd A) : option Exit :=
  match snd run with
  | inl e => Some e
  | inr _ => None
  end.

(** ** The declared flags *)



(** The order in which the struct declares its JSON members. *)
Definition declaredMembers : list string :=
  [ "status"; "accessKey"; "secretKey"; "parentUser"; "impliedPolicy";
    "policy"; "accountStatus"; "memberOf" ].

(** The request the add handler builds from the command line and the
    policy it has resolved. *)
Definition addRequest (ctx : Context) (buf : option (list Byte.byte)) : AddServiceAccountReq :=
  {| req_Policy := buf;
     req_AccessKey := ctx_String ctx "access-key";
     req_SecretKey := ctx_String ctx "secret-key";
     req_TargetUser := Args_Get (Args ctx) 1 |}.

(** ** More sample worlds *)

Definition failingClient : AdminClient :=
  {| AddServiceAccount := fun _ => inl "access denied";
     SetUserStatus := fun _ _ => Some "no such user" |}.

(** The alias is unknown: no connection. *)
Definition worldNoConnection : World :=
  {| newAdminClient := fun _ => inl {| cause := "no such alias"; callTrace := [] |};
     ReadFile := fun _ => inr [Byte.x7b; Byte.x7d];
     ParseConfig := fun _ => None |}.

(** The policy file cannot be opened. *)
Definition worldUnreadable : World :=
  {| newAdminClient := fun _ => inr exampleClient;
     ReadFile := fun _ => inl "no such file";
     ParseConfig := fun _ => None |}.

(** The policy file reads and parses. *)
Definition worldGoodPolicy : World :=
  {| newAdminClient := fun _ => inr exampleClient;
     ReadFile := fun _ => inr [Byte.x7b; Byte.x7d];
     ParseConfig := fun _ => None |}.

(** The connection is made and the remote side refuses. *)
Definition worldRemoteFails : World :=
  {| newAdminClient := fun _ => inr failingClient;
     ReadFile := fun _ => inr [Byte.x7b; Byte.x7d];
     ParseConfig := fun _ => None |}.

Definition infoExample : svcAcctMessage :=
  {| op := "info"; Status := ""; AccessKey := "AKIAEXAMPLE"; SecretKey := "s3cr3t";
     ParentUser := "foobar"; ImpliedPolicy := true; Policy := "";
     AccountStatus := "enabled"; MemberOf := [] |}.

(** ** Observations on runs and documents *)

(** Whether a log entry is a printed message. *)
Definition isPrintMsg (ev : Event) : bool :=
  match ev with
  | CallPrintMsg _ => true
  | _ => false
  end.

(** Whether a run came back from the handler instead of ending the
    process. *)
Definition returned {A} (run : Cmd A) : bool :=
  match snd run with
  | inr _ => true
  | inl _ => false
  end.

(** The policy the add handler resolves from the command line: nil without
    a policy flag, else the contents of the named file once the parser has
    accepted them. *)
Definition policyResolved (w : World) (ctx : Context) (buf : option (list Byte.byte)) : Prop :=
  (ctx_String ctx "policy" = "" ∧ buf = None) ∨
  (ctx_String ctx "policy" ≠ "" ∧
   ∃ b, buf = Some b ∧
        ReadFile w (ctx_String ctx "policy") = inr b ∧ ParseConfig w b = None).


(** * Properties *)

(** ** Strings *)

Lemma append_nonempty_l (s t : string) : s ≠ "" → s +:+ t ≠ "".
Proof. destruct s as [|c s]; [congruence | discriminate]. Qed.

Lemma append_nonempty_r (s t : string) : t ≠ "" → s +:+ t ≠ "".
Proof. destruct s as [|c s]; [trivial | discriminate]. Qed.

Lemma fitCell_nonempty (width : Z) (content : string) :
  (0 < width)%Z → fitCell width content ≠ "".
Proof.
  intros Hw. unfold fitCell.
  destruct (width <? 0)%Z eqn:Hneg; [lia|].
  destruct (Z.to_nat width <? String.length content)%nat.
  - apply append_nonempty_r. discriminate.
  - destruct content as [|c rest]; [|discriminate].
    cbn [String.length String.append]. rewrite Nat.sub_0_r.
    destruct (Z.to_nat width) eqn:Hn; [lia | discriminate].
Qed.

Lemma plainConsole_ls_row_nonempty (key : string) :
  @buildRow plainConsole lsTable [key] ≠ "".
Proof.
  change (fitCell accessFieldMaxLen key +:+ "" +:+ "" ≠ "").
  apply append_nonempty_l, fitCell_nonempty. reflexivity.
Qed.

(** ** The switch on the operation tag *)

(** Decide every comparison of the switch, keeping each outcome as an
    equation on [op u]. *)
Ltac switch_on_op u :=
  repeat match goal with
  | |- context [op u =? ?tag] =>
      let E := fresh "Hop" in
      destruct (op u =? tag) eqn:E;
      [apply String.eqb_eq in E | apply String.eqb_neq in E]
  end.

Lemma unknown_op_all_differ (tag : string) :
  tag ∉ knownOps ↔
  tag ≠ "ls" ∧ tag ≠ "info" ∧ tag ≠ "rm" ∧ tag ≠ "disable" ∧
  tag ≠ "enable" ∧ tag ≠ "add" ∧ tag ≠ "set".
Proof.
  unfold knownOps. rewrite !not_elem_of_cons. split.
  - intros (?&?&?&?&?&?&?&_). auto 10.
  - intros (?&?&?&?&?&?&?). repeat split; auto. apply not_elem_of_nil.
Qed.

(** C2. Human rendering, for a console that turns non-empty text into
    non-empty text and prints a non-empty row for the one-column table: a
    message whose tag is one of ls, info, rm, disable, enable, add, set
    renders to a non-empty string; a message with any other tag renders to
    the empty string; and the rendering is a function of the tag and of the
    fields the templates read, so equal inputs give equal output. *)
Theorem String_known_nonempty_unknown_empty `{Console} :
  (∀ tag data, data ≠ "" → Colorize tag data ≠ "") →
  (∀ key, buildRow lsTable [key] ≠ "") →
  ∀ u : svcAcctMessage,
    (op u ∈ knownOps → svcAcctMessage_String u ≠ "") ∧
    (op u ∉ knownOps → svcAcctMessage_String u = "") ∧
    (∀ u' : svcAcctMessage,
       op u' = op u → AccessKey u' = AccessKey u →
       SecretKey u' = SecretKey u → ParentUser u' = ParentUser u →
       ImpliedPolicy u' = ImpliedPolicy u →
       AccountStatus u' = AccountStatus u →
       svcAcctMessage_String u' = svcAcctMessage_String u).
Proof.
  intros Hcolor Hrow u. split; [|split].
  - intros Hknown. unfold svcAcctMessage_String.
    switch_on_op u; try (apply Hcolor; discriminate); try apply Hrow.
    exfalso. revert Hknown. apply unknown_op_all_differ. tauto.
  - intros Hunknown. apply unknown_op_all_differ in Hunknown.
    unfold svcAcctMessage_String.
    switch_on_op u; tauto.
  - intros u' Hop Hak Hsk Hpu Hip Has. unfold svcAcctMessage_String.
    rewrite Hop, Hak, Hsk, Hpu, Hip, Has. reflexivity.
Qed.

Lemma String_known_nonempty_unknown_empty_witness :
  (op lsExample ∈ knownOps →
   @svcAcctMessage_String plainConsole lsExample ≠ "") ∧
  (op lsExample ∉ knownOps →
   @svcAcctMessage_String plainConsole lsExample = "") ∧
  (∀ u' : svcAcctMessage,
     op u' = op lsExample → AccessKey u' = AccessKey lsExample →
     SecretKey u' = SecretKey lsExample → ParentUser u' = ParentUser lsExample →
     ImpliedPolicy u' = ImpliedPolicy lsExample →
     AccountStatus u' = AccountStatus lsExample →
     @svcAcctMessage_String plainConsole u' =
     @svcAcctMessage_String plainConsole lsExample).
Proof.
  apply (@String_known_nonempty_unknown_empty plainConsole).
  - intros tag data Hdata. simpl. exact Hdata.
  - exact plainConsole_ls_row_nonempty.
Defined.

Example String_add_plain :
  @svcAcctMessage_String plainConsole (svcAcctAddMessage exampleCreds)
  = "Access Key: AKIAEXAMPLE" +:+ nl +:+ "Secret Key: s3cr3t".
Proof. reflexivity. Qed.

Example String_ls_plain :
  @svcAcctMessage_String plainConsole lsExample = "AKIAEXAMPLE         ".
Proof. reflexivity. Qed.

Example String_ls_plain_width :
  String.length (@svcAcctMessage_String plainConsole lsExample) = 20%nat.
Proof. reflexivity. Qed.

Example String_unknown_tag_plain :
  @svcAcctMessage_String plainConsole
    {| op := "list"; Status := ""; AccessKey := "AKIAEXAMPLE"; SecretKey := "";
       ParentUser := ""; ImpliedPolicy := false; Policy := "";
       AccountStatus := ""; MemberOf := [] |} = "".
Proof. reflexivity. Qed.








Example String_ls_long_key_is_cut :
  @svcAcctMessage_String plainConsole
    {| op := "ls"; Status := ""; AccessKey := "ABCDEFGHIJKLMNOPQRSTUVWXYZ";
       SecretKey := ""; ParentUser := ""; ImpliedPolicy := false; Policy := "";
       AccountStatus := ""; MemberOf := [] |}
  = "ABCDEFGHIJKLMNOPQ...".
Proof. reflexivity. Qed.

(** ** The JSON document *)

Lemma JSON_is_marshal_with_status (u : svcAcctMessage) :
  svcAcctMessage_JSON u = marshal (set_Status "success" u).
Proof. reflexivity. Qed.

(** Which members a document has is decided field by field, by the value
    of the field alone. *)
Lemma JSON_members_by_value (u : svcAcctMessage) :
  let doc := svcAcctMessage_JSON u in
  hasKey "status" doc = true ∧
  hasKey "accessKey" doc = negb (isEmptyValue (JString (AccessKey u))) ∧
  hasKey "secretKey" doc = negb (isEmptyValue (JString (SecretKey u))) ∧
  hasKey "parentUser" doc = negb (isEmptyValue (JString (ParentUser u))) ∧
  hasKey "impliedPolicy" doc = negb (isEmptyValue (JBool (ImpliedPolicy u))) ∧
  hasKey "policy" doc = negb (isEmptyValue (JString (Policy u))) ∧
  hasKey "accountStatus" doc = negb (isEmptyValue (JString (AccountStatus u))) ∧
  hasKey "memberOf" doc = negb (isEmptyValue (JStrings (MemberOf u))).
Proof.
  destruct u as [tag st ak sk pu ip po acs mo].
  destruct ak, sk, pu, ip, po, acs, mo; repeat split; reflexivity.
Qed.

(** C7. The JSON document of every message has a [status] member, and its
    value is the string "success", whatever the fields of the message held
    when it was built. *)
Theorem JSON_status_is_success (u : svcAcctMessage) :
  member "status" (svcAcctMessage_JSON u) = Some (JString "success").
Proof. reflexivity. Qed.

Example JSON_status_overwritten :
  member "status"
    (svcAcctMessage_JSON
       {| op := "info"; Status := "failure"; AccessKey := ""; SecretKey := "";
          ParentUser := ""; ImpliedPolicy := false; Policy := "";
          AccountStatus := ""; MemberOf := [] |})
  = Some (JString "success").
Proof. reflexivity. Qed.

(** C8. Rendering does not change the message it is called on: after
    [JSON] and after [String] the caller's message is the one it was before
    the call, field for field, although [JSON] has set the status of its
    own copy, the one it serializes, to "success". *)
Theorem rendering_leaves_message_unchanged `{Console} (m : svcAcctMessage) :
  caller_m (fst (JSON_body (enter m))) = m ∧
  caller_m (fst (String_body (enter m))) = m ∧
  Status (local_u (fst (JSON_body (enter m)))) = "success" ∧
  snd (JSON_body (enter m)) = marshal (local_u (fst (JSON_body (enter m)))).
Proof. repeat split. Qed.

Example JSON_keeps_caller_status :
  let m := svcAcctAddMessage exampleCreds in
  let f := fst (JSON_body (enter m)) in
  Status (caller_m f) = "" ∧ Status (local_u f) = "success".
Proof. split; reflexivity. Qed.

(** C1, as stated, fails: the message the add handler builds is tagged add
    and its JSON document has an [accountStatus] member. *)
Lemma add_JSON_has_accountStatus :
  op (svcAcctAddMessage exampleCreds) = "add" ∧
  hasKey "accountStatus" (svcAcctMessage_JSON (svcAcctAddMessage exampleCreds)) = true ∧
  svcAcctMessage_JSON (svcAcctAddMessage exampleCreds) =
    [ ("status", JString "success"); ("accessKey", JString "AKIAEXAMPLE");
      ("secretKey", JString "s3cr3t"); ("accountStatus", JString "enabled") ].
Proof. repeat split. Qed.

(** The tag plays no part either way: a message tagged rm that carries a
    secret key has a [secretKey] member. *)
Example rm_JSON_has_secretKey :
  hasKey "secretKey"
    (svcAcctMessage_JSON
       {| op := "rm"; Status := ""; AccessKey := "AKIAEXAMPLE"; SecretKey := "s3cr3t";
          ParentUser := ""; ImpliedPolicy := false; Policy := "";
          AccountStatus := ""; MemberOf := [] |}) = true.
Proof. reflexivity. Qed.

(** C1, amended. The JSON document leaves out a member exactly when the
    value of its field is empty (the empty string, false, an empty list),
    [status] is always there, and neither depends on the operation tag. The
    document of the message of a successful add has no [memberOf],
    [policy], [parentUser] or [impliedPolicy] member, and it has an
    [accountStatus] member. *)
Theorem JSON_omits_by_emptiness_not_by_tag :
  (∀ u : svcAcctMessage,
     let doc := svcAcctMessage_JSON u in
     hasKey "status" doc = true ∧
     hasKey "accessKey" doc = negb (AccessKey u =? "") ∧
     hasKey "secretKey" doc = negb (SecretKey u =? "") ∧
     hasKey "parentUser" doc = negb (ParentUser u =? "") ∧
     hasKey "impliedPolicy" doc = ImpliedPolicy u ∧
     hasKey "policy" doc = negb (Policy u =? "") ∧
     hasKey "accountStatus" doc = negb (AccountStatus u =? "") ∧
     hasKey "memberOf" doc = negb (bool_decide (MemberOf u = []))) ∧
  (∀ tag tag' st st' ak sk pu ip po acs mo,
     svcAcctMessage_JSON
       {| op := tag; Status := st; AccessKey := ak; SecretKey := sk;
          ParentUser := pu; ImpliedPolicy := ip; Policy := po;
          AccountStatus := acs; MemberOf := mo |}
     = svcAcctMessage_JSON
       {| op := tag'; Status := st'; AccessKey := ak; SecretKey := sk;
          ParentUser := pu; ImpliedPolicy := ip; Policy := po;
          AccountStatus := acs; MemberOf := mo |}) ∧
  (∀ creds : Credentials,
     let doc := svcAcctMessage_JSON (svcAcctAddMessage creds) in
     hasKey "memberOf" doc = false ∧ hasKey "policy" doc = false ∧
     hasKey "parentUser" doc = false ∧ hasKey "impliedPolicy" doc = false ∧
     hasKey "accountStatus" doc = true).
Proof.
  split; [|split].
  - intros u doc. subst doc.
    destruct (JSON_members_by_value u) as (Hst & Hak & Hsk & Hpu & Hip & Hpo & Has & Hmo).
    cbn [isEmptyValue] in *. rewrite negb_involutive in Hip.
    repeat split; try assumption.
    rewrite Hmo. destruct (MemberOf u); reflexivity.
  - reflexivity.
  - intros creds doc. subst doc.
    destruct (JSON_members_by_value (svcAcctAddMessage creds))
      as (_ & _ & _ & Hpu & Hip & Hpo & Has & Hmo).
    repeat split; assumption.
Qed.

(** ** Runs of the handlers *)

(** Unfold a handler down to the log and the result it computes. *)
Ltac run_handler :=
  unfold mainAdminUserSvcAcctAdd, mainAdminUserDisable,
    checkAdminUserSvcAcctAddSyntax, checkAdminUserDisableSyntax,
    printMsg, orFatal, fatalIf, call, exit, result_Trace, result_NewError;
  unfold mbind, mret, Cmd_bind, Cmd_ret.

Lemma ctx_String_set (ctx : Context) (name value : string) :
  flags ctx !! name = Some value → ctx_String ctx name = value.
Proof. intros Hsome. unfold ctx_String. rewrite Hsome. reflexivity. Qed.

(** C4. The add handler, called with an alias and an account and without a
    policy, connects to the alias and sends one request: its target user is
    the second argument, its access and secret keys are the values of the
    two flags as given, its policy is nil. Without flags both keys are the
    empty string. When the request succeeds the handler prints one message,
    whose human rendering is the text "Access Key: K", a line feed,
    "Secret Key: S" with the returned credentials, passed through the
    console under the tag UserMessage; then it returns. *)
Theorem add_sends_request_and_prints_credentials `{Console}
    (w : World) (ctx : Context) (aliasedURL account : string)
    (client : AdminClient) (creds : Credentials) :
  Args ctx = [aliasedURL; account] →
  ctx_String ctx "policy" = "" →
  newAdminClient w aliasedURL = inr client →
  AddServiceAccount client
    {| req_Policy := None; req_AccessKey := ctx_String ctx "access-key";
       req_SecretKey := ctx_String ctx "secret-key"; req_TargetUser := account |}
    = inr creds →
  mainAdminUserSvcAcctAdd w ctx =
    ([ CallNewAdminClient aliasedURL;
       CallAddServiceAccount
         {| req_Policy := None; req_AccessKey := ctx_String ctx "access-key";
            req_SecretKey := ctx_String ctx "secret-key"; req_TargetUser := account |};
       CallPrintMsg (svcAcctAddMessage creds) ], inr tt)
  ∧ svcAcctMessage_String (svcAcctAddMessage creds) =
      Colorize "UserMessage"
        ("Access Key: " +:+ creds_AccessKey creds +:+ nl +:+
         "Secret Key: " +:+ creds_SecretKey creds)
  ∧ (flags ctx = ∅ →
       ctx_String ctx "access-key" = "" ∧ ctx_String ctx "secret-key" = "")
  ∧ (∀ ak sk : string,
       flags ctx !! "access-key" = Some ak → flags ctx !! "secret-key" = Some sk →
       ctx_String ctx "access-key" = ak ∧ ctx_String ctx "secret-key" = sk).
Proof.
  intros Hargs Hpolicy Hconn Hadd. split; [|split; [|split]].
  - run_handler. rewrite Hargs. cbn [length Nat.eqb negb].
    unfold Args_Get. cbn [lookup list_lookup from_option id].
    rewrite Hconn, Hpolicy. cbn [String.eqb negb]. rewrite Hadd. reflexivity.
  - reflexivity.
  - intros Hempty. unfold ctx_String. rewrite Hempty, !lookup_empty. split; reflexivity.
  - intros ak sk Hak Hsk. split; apply ctx_String_set; assumption.
Qed.

Lemma add_sends_request_and_prints_credentials_witness :
  mainAdminUserSvcAcctAdd exampleWorld ctxPlain =
    ([ CallNewAdminClient "myminio";
       CallAddServiceAccount
         {| req_Policy := None; req_AccessKey := ""; req_SecretKey := "";
            req_TargetUser := "foobar" |};
       CallPrintMsg (svcAcctAddMessage exampleCreds) ], inr tt)
  ∧ @svcAcctMessage_String plainConsole (svcAcctAddMessage exampleCreds) =
      "Access Key: AKIAEXAMPLE" +:+ nl +:+ "Secret Key: s3cr3t".
Proof.
  pose proof (@add_sends_request_and_prints_credentials plainConsole
                exampleWorld ctxPlain "myminio" "foobar" exampleClient exampleCreds
                eq_refl eq_refl eq_refl eq_refl) as (Hrun & Htext & _).
  split; [exact Hrun | exact Htext].
Defined.

Example add_forwards_explicit_keys :
  fst (mainAdminUserSvcAcctAdd exampleWorld ctxKeys) !! 1%nat =
    Some (CallAddServiceAccount
            {| req_Policy := None; req_AccessKey := "myaccess";
               req_SecretKey := "mysecret"; req_TargetUser := "foobar" |}).
Proof. reflexivity. Qed.

(** Every successful run of the add handler ends by printing the message
    built from the returned credentials, and prints nothing before. *)
Lemma add_returns_inv (w : World) (ctx : Context) (t : list Event) :
  mainAdminUserSvcAcctAdd w ctx = (t, inr tt) →
  ∃ (creds : Credentials) (pre : list Event),
    t = (pre ++ [CallPrintMsg (svcAcctAddMessage creds)])%list ∧
    ∀ m, CallPrintMsg m ∉ pre.
Proof.
  run_handler. intros Hrun.
  repeat case_match; simplify_eq; cbn [app];
    eexists;
    first [ eexists [_; _]; split; [reflexivity|]
          | eexists [_; _; _; _]; split; [reflexivity|] ];
    intros m Hin; repeat (apply elem_of_cons in Hin as [Hin|Hin]; [discriminate|]);
    by apply elem_of_nil in Hin.
Qed.

(** C9. Whenever the add handler returns, the one message it has printed
    is tagged add and its account status is the constant "enabled",
    whatever credentials the remote call returned; the JSON document of
    that message carries [accountStatus] = "enabled". *)
Theorem add_message_accountStatus_enabled
    (w : World) (ctx : Context) (t : list Event) :
  mainAdminUserSvcAcctAdd w ctx = (t, inr tt) →
  ∃ m : svcAcctMessage,
    last t = Some (CallPrintMsg m) ∧
    (∀ m', CallPrintMsg m' ∈ t → m' = m) ∧
    op m = "add" ∧
    AccountStatus m = "enabled" ∧
    member "accountStatus" (svcAcctMessage_JSON m) = Some (JString "enabled").
Proof.
  intros Hrun. apply add_returns_inv in Hrun as (creds & pre & -> & Hpre).
  exists (svcAcctAddMessage creds). split; [apply last_snoc|]. split.
  - intros m' Hin. apply elem_of_app in Hin as [Hin|Hin].
    + contradiction (Hpre m').
    + apply list_elem_of_singleton in Hin. congruence.
  - split; [reflexivity|]. split; [reflexivity|].
    destruct creds as [ak sk]. destruct ak, sk; reflexivity.
Qed.

Lemma add_message_accountStatus_enabled_witness :
  ∃ m : svcAcctMessage,
    last (fst (mainAdminUserSvcAcctAdd exampleWorld ctxKeys)) = Some (CallPrintMsg m) ∧
    (∀ m', CallPrintMsg m' ∈ fst (mainAdminUserSvcAcctAdd exampleWorld ctxKeys) → m' = m) ∧
    op m = "add" ∧
    AccountStatus m = "enabled" ∧
    member "accountStatus" (svcAcctMessage_JSON m) = Some (JString "enabled").
Proof.
  apply (add_message_accountStatus_enabled exampleWorld ctxKeys). reflexivity.
Defined.

(** C5. The disable handler, called with exactly two arguments, connects
    to the first, asks the remote side to set the status of the second to
    disabled, and when that succeeds prints one message: its tag is
    disable, its access key is the second argument as given, and its human
    rendering is "Disabled service account `ACCOUNT` successfully.", passed
    through the console under the tag UserMessage. *)
Theorem disable_prints_disable_message `{Console}
    (w : World) (ctx : Context) (aliasedURL account : string) (client : AdminClient) :
  Args ctx = [aliasedURL; account] →
  newAdminClient w aliasedURL = inr client →
  SetUserStatus client account madmin_AccountDisabled = None →
  ∃ m : userMessage,
    mainAdminUserDisable w ctx =
      ([ CallSetColor "UserMessage" FgGreen;
         CallNewAdminClient aliasedURL;
         CallSetUserStatus account madmin_AccountDisabled;
         CallPrintMsg m ], inr tt)
    ∧ op m = "disable"
    ∧ AccessKey m = account
    ∧ userMessage_String m =
        Colorize "UserMessage" ("Disabled service account `" +:+ account +:+ "` successfully.").
Proof.
  intros Hargs Hconn Hset. exists (userDisableMessage account).
  split; [|repeat split].
  run_handler. rewrite Hargs. cbn [length Nat.eqb negb].
  unfold Args_Get. cbn [lookup list_lookup from_option id].
  rewrite Hconn, Hset. reflexivity.
Qed.

Lemma disable_prints_disable_message_witness :
  ∃ m : userMessage,
    mainAdminUserDisable exampleWorld ctxPlain =
      ([ CallSetColor "UserMessage" FgGreen;
         CallNewAdminClient "myminio";
         CallSetUserStatus "foobar" madmin_AccountDisabled;
         CallPrintMsg m ], inr tt)
    ∧ op m = "disable"
    ∧ AccessKey m = "foobar"
    ∧ @userMessage_String plainConsole m =
        "Disabled service account `foobar` successfully.".
Proof.
  exact (@disable_prints_disable_message plainConsole exampleWorld ctxPlain
           "myminio" "foobar" exampleClient eq_refl eq_refl eq_refl).
Defined.

(** C3, as stated, fails: with a policy file that does not parse, the add
    handler has already called three collaborators when it gives up, and
    the connection to the alias comes first, before the policy file is
    read. *)
Lemma add_bad_policy_connects_first :
  mainAdminUserSvcAcctAdd exampleWorld ctxBadPolicy =
    ([ CallNewAdminClient "myminio";
       CallReadFile "policy.json";
       CallParseConfig [Byte.x7b] ],
     inl (Fatal {| cause := "unexpected end of JSON input"; callTrace := [] |}
            "Unable to parse the policy document."))
  ∧ length (fst (mainAdminUserSvcAcctAdd exampleWorld ctxBadPolicy)) ≠ 0%nat
  ∧ fst (mainAdminUserSvcAcctAdd exampleWorld ctxBadPolicy) !! 0%nat
      = Some (CallNewAdminClient "myminio").
Proof. split; [reflexivity|]. split; [discriminate | reflexivity]. Qed.

(** C3, amended. The add handler connects to the alias first and resolves
    the policy document after: when the connection is made, the policy
    file is read, and its contents do not parse, the handler stops with
    the fatal error "Unable to parse the policy document." after these
    three calls, and no remote operation has been attempted. *)
Theorem add_invalid_policy_stops_before_remote_call
    (w : World) (ctx : Context) (aliasedURL account path : string)
    (client : AdminClient) (buf : list Byte.byte) (e : error) :
  Args ctx = [aliasedURL; account] →
  flags ctx !! "policy" = Some path →
  path ≠ "" →
  newAdminClient w aliasedURL = inr client →
  ReadFile w path = inr buf →
  ParseConfig w buf = Some e →
  mainAdminUserSvcAcctAdd w ctx =
    ([ CallNewAdminClient aliasedURL; CallReadFile path; CallParseConfig buf ],
     inl (Fatal {| cause := e; callTrace := [] |} "Unable to parse the policy document."))
  ∧ ∀ ev, ev ∈ fst (mainAdminUserSvcAcctAdd w ctx) → isRemoteCall ev = false.
Proof.
  intros Hargs Hflag Hpath Hconn Hread Hparse.
  assert (Hrun : mainAdminUserSvcAcctAdd w ctx =
    ([ CallNewAdminClient aliasedURL; CallReadFile path; CallParseConfig buf ],
     inl (Fatal {| cause := e; callTrace := [] |} "Unable to parse the policy document."))).
  { run_handler. rewrite Hargs. cbn [length Nat.eqb negb].
    unfold Args_Get. cbn [lookup list_lookup from_option id].
    rewrite Hconn, (ctx_String_set ctx "policy" path Hflag).
    apply String.eqb_neq in Hpath. rewrite Hpath. cbn [negb].
    rewrite Hread, Hparse. reflexivity. }
  split; [exact Hrun|]. rewrite Hrun. cbn [fst].
  intros ev Hin.
  repeat (apply elem_of_cons in Hin as [->|Hin]; [reflexivity|]).
  by apply elem_of_nil in Hin.
Qed.

Lemma add_invalid_policy_stops_before_remote_call_witness :
  mainAdminUserSvcAcctAdd exampleWorld ctxBadPolicy =
    ([ CallNewAdminClient "myminio"; CallReadFile "policy.json";
       CallParseConfig [Byte.x7b] ],
     inl (Fatal {| cause := "unexpected end of JSON input"; callTrace := [] |}
            "Unable to parse the policy document."))
  ∧ ∀ ev, ev ∈ fst (mainAdminUserSvcAcctAdd exampleWorld ctxBadPolicy) →
          isRemoteCall ev = false.
Proof.
  apply (add_invalid_policy_stops_before_remote_call exampleWorld ctxBadPolicy
           "myminio" "foobar" "policy.json" exampleClient [Byte.x7b]
           "unexpected end of JSON input");
    [reflexivity | reflexivity | discriminate | reflexivity | reflexivity | reflexivity].
Defined.

(** When the connection cannot be made the policy file is not even read. *)
Lemma add_connection_failure_reads_no_policy
    (w : World) (ctx : Context) (aliasedURL account : string) (err : probeError) :
  Args ctx = [aliasedURL; account] →
  newAdminClient w aliasedURL = inl err →
  mainAdminUserSvcAcctAdd w ctx =
    ([CallNewAdminClient aliasedURL],
     inl (Fatal err "Unable to initialize admin connection.")).
Proof.
  intros Hargs Hconn. run_handler. rewrite Hargs. cbn [length Nat.eqb negb].
  unfold Args_Get. cbn [lookup list_lookup from_option id].
  rewrite Hconn. reflexivity.
Qed.

(** C6, as stated, fails for the add handler: called without arguments it
    stops through the fatal-error path, which prints its message and not
    the command's help. *)
Lemma add_wrong_arity_prints_no_help :
  mainAdminUserSvcAcctAdd exampleWorld ctxNoArgs =
    ([], inl (Fatal {| cause := "Invalid arguments provided"; callTrace := [] |}
                "Incorrect number of arguments for user svcacct add command."))
  ∧ printsHelp <$> exitOf (mainAdminUserSvcAcctAdd exampleWorld ctxNoArgs) = Some false.
Proof. split; reflexivity. Qed.

(** C6, amended. With any number of positional arguments other than two,
    both handlers end the process with a non-zero exit status before any
    collaborator is called: the disable handler prints the command's help
    and exits with status 1; the add handler ends through the fatal-error
    path with the usage error and the message "Incorrect number of
    arguments for user svcacct add command.", and prints no help. *)
Theorem wrong_arity_stops_before_any_call (w : World) (ctx : Context) :
  length (Args ctx) ≠ 2%nat →
  (∃ e : probeError,
     probe_Trace (Args_Tail (Args ctx)) errInvalidArgument = Some e ∧
     mainAdminUserSvcAcctAdd w ctx =
       ([], inl (Fatal e "Incorrect number of arguments for user svcacct add command.")))
  ∧ mainAdminUserDisable w ctx = ([], inl (HelpAndExit "disable" 1))
  ∧ exitsNonZero <$> exitOf (mainAdminUserSvcAcctAdd w ctx) = Some true
  ∧ exitsNonZero <$> exitOf (mainAdminUserDisable w ctx) = Some true
  ∧ printsHelp <$> exitOf (mainAdminUserSvcAcctAdd w ctx) = Some false
  ∧ printsHelp <$> exitOf (mainAdminUserDisable w ctx) = Some true.
Proof.
  intros Hlen. apply Nat.eqb_neq in Hlen.
  assert (Hadd : mainAdminUserSvcAcctAdd w ctx =
    ([], inl (Fatal {| cause := "Invalid arguments provided";
                       callTrace := Args_Tail (Args ctx) |}
                "Incorrect number of arguments for user svcacct add command."))).
  { run_handler. rewrite Hlen. reflexivity. }
  assert (Hdisable : mainAdminUserDisable w ctx = ([], inl (HelpAndExit "disable" 1))).
  { run_handler. rewrite Hlen. reflexivity. }
  split; [|split; [exact Hdisable|]].
  - eexists. split; [reflexivity | exact Hadd].
  - rewrite Hadd, Hdisable. repeat split.
Qed.

Lemma wrong_arity_stops_before_any_call_witness :
  (∃ e : probeError,
     probe_Trace (Args_Tail ["myminio"; "foobar"; "extra"]) errInvalidArgument = Some e ∧
     mainAdminUserSvcAcctAdd exampleWorld
       {| Args := ["myminio"; "foobar"; "extra"]; flags := ∅ |} =
       ([], inl (Fatal e "Incorrect number of arguments for user svcacct add command.")))
  ∧ mainAdminUserDisable exampleWorld
      {| Args := ["myminio"; "foobar"; "extra"]; flags := ∅ |}
    = ([], inl (HelpAndExit "disable" 1))
  ∧ exitsNonZero <$> exitOf (mainAdminUserSvcAcctAdd exampleWorld
      {| Args := ["myminio"; "foobar"; "extra"]; flags := ∅ |}) = Some true
  ∧ exitsNonZero <$> exitOf (mainAdminUserDisable exampleWorld
      {| Args := ["myminio"; "foobar"; "extra"]; flags := ∅ |}) = Some true
  ∧ printsHelp <$> exitOf (mainAdminUserSvcAcctAdd exampleWorld
      {| Args := ["myminio"; "foobar"; "extra"]; flags := ∅ |}) = Some false
  ∧ printsHelp <$> exitOf (mainAdminUserDisable exampleWorld
      {| Args := ["myminio"; "foobar"; "extra"]; flags := ∅ |}) = Some true.
Proof.
  apply (wrong_arity_stops_before_any_call exampleWorld
           {| Args := ["myminio"; "foobar"; "extra"]; flags := ∅ |}).
  simpl. lia.
Defined.

Example wrong_arity_one_argument :
  mainAdminUserDisable exampleWorld {| Args := ["myminio"]; flags := ∅ |}
  = ([], inl (HelpAndExit "disable" 1)).
Proof. reflexivity. Qed.

(** * Further properties of the handlers *)

(** Rewrite the argument list of a two-argument call everywhere. *)
Ltac two_args Hargs :=
  run_handler; unfold addRequest, Args_Get in *; rewrite ?Hargs in *;
  cbn [length Nat.eqb negb]; cbn [lookup list_lookup from_option id] in *.

(** X1. With a policy file that reads and parses, the add handler sends the
    bytes of the file, as read, as the policy of the request, after the
    connection, the read and the parse, and prints the returned
    credentials. *)
Theorem add_valid_policy_is_forwarded
    (w : World) (ctx : Context) (aliasedURL account path : string)
    (client : AdminClient) (buf : list Byte.byte) (creds : Credentials) :
  Args ctx = [aliasedURL; account] →
  ctx_String ctx "policy" = path →
  path ≠ "" →
  newAdminClient w aliasedURL = inr client →
  ReadFile w path = inr buf →
  ParseConfig w buf = None →
  AddServiceAccount client (addRequest ctx (Some buf)) = inr creds →
  mainAdminUserSvcAcctAdd w ctx =
    ([ CallNewAdminClient aliasedURL; CallReadFile path; CallParseConfig buf;
       CallAddServiceAccount (addRequest ctx (Some buf));
       CallPrintMsg (svcAcctAddMessage creds) ], inr tt)
  ∧ req_Policy (addRequest ctx (Some buf)) = Some buf
  ∧ req_TargetUser (addRequest ctx (Some buf)) = account.
Proof.
  intros Hargs Hflag Hpath Hconn Hread Hparse Hadd.
  apply String.eqb_neq in Hpath.
  two_args Hargs. rewrite Hconn, Hflag, Hpath. cbn [negb].
  rewrite Hread, Hparse. cbn [probe_NewError]. rewrite Hadd.
  repeat split.
Qed.

Lemma add_valid_policy_is_forwarded_witness :
  mainAdminUserSvcAcctAdd worldGoodPolicy ctxBadPolicy =
    ([ CallNewAdminClient "myminio"; CallReadFile "policy.json";
       CallParseConfig [Byte.x7b; Byte.x7d];
       CallAddServiceAccount
         {| req_Policy := Some [Byte.x7b; Byte.x7d]; req_AccessKey := "";
            req_SecretKey := ""; req_TargetUser := "foobar" |};
       CallPrintMsg (svcAcctAddMessage exampleCreds) ], inr tt).
Proof.
  refine (proj1 (add_valid_policy_is_forwarded worldGoodPolicy ctxBadPolicy
                   "myminio" "foobar" "policy.json" exampleClient
                   [Byte.x7b; Byte.x7d] exampleCreds
                   eq_refl eq_refl _ eq_refl eq_refl eq_refl eq_refl)).
  discriminate.
Defined.

(** X2. When the policy file cannot be opened the add handler stops with
    "Unable to open the policy document." right after the failed read: the
    parser is not called and no request is sent. *)
Theorem add_unreadable_policy_stops_at_read
    (w : World) (ctx : Context) (aliasedURL account path : string)
    (client : AdminClient) (err : error) :
  Args ctx = [aliasedURL; account] →
  ctx_String ctx "policy" = path →
  path ≠ "" →
  newAdminClient w aliasedURL = inr client →
  ReadFile w path = inl err →
  mainAdminUserSvcAcctAdd w ctx =
    ([ CallNewAdminClient aliasedURL; CallReadFile path ],
     inl (Fatal {| cause := err; callTrace := [] |} "Unable to open the policy document.")).
Proof.
  intros Hargs Hflag Hpath Hconn Hread.
  apply String.eqb_neq in Hpath.
  two_args Hargs. rewrite Hconn, Hflag, Hpath. cbn [negb].
  rewrite Hread. reflexivity.
Qed.

Lemma add_unreadable_policy_stops_at_read_witness :
  mainAdminUserSvcAcctAdd worldUnreadable ctxBadPolicy =
    ([ CallNewAdminClient "myminio"; CallReadFile "policy.json" ],
     inl (Fatal {| cause := "no such file"; callTrace := [] |}
            "Unable to open the policy document.")).
Proof.
  refine (add_unreadable_policy_stops_at_read worldUnreadable ctxBadPolicy
            "myminio" "foobar" "policy.json" exampleClient "no such file"
            eq_refl eq_refl _ eq_refl eq_refl).
  discriminate.
Defined.

(** X3. When the remote side refuses the request, with or without a
    policy file, the add handler stops with "Unable to add a new service
    account"; the error it reports carries the remote error and, as its
    trace, all the positional arguments; the refused request is the last
    call of the run and nothing is printed. *)
Theorem add_remote_failure_traces_arguments
    (w : World) (ctx : Context) (aliasedURL account : string)
    (client : AdminClient) (buf : option (list Byte.byte)) (err : error) :
  Args ctx = [aliasedURL; account] →
  newAdminClient w aliasedURL = inr client →
  policyResolved w ctx buf →
  AddServiceAccount client (addRequest ctx buf) = inl err →
  mainAdminUserSvcAcctAdd w ctx =
    ((CallNewAdminClient aliasedURL ::
      match buf with
      | None => []
      | Some b => [CallReadFile (ctx_String ctx "policy"); CallParseConfig b]
      end ++ [CallAddServiceAccount (addRequest ctx buf)])%list,
     inl (Fatal {| cause := err; callTrace := [aliasedURL; account] |}
            "Unable to add a new service account"))
  ∧ existsb isPrintMsg (fst (mainAdminUserSvcAcctAdd w ctx)) = false.
Proof.
  intros Hargs Hconn Hpolicy Hadd.
  assert (Hrun : mainAdminUserSvcAcctAdd w ctx =
    ((CallNewAdminClient aliasedURL ::
      match buf with
      | None => []
      | Some b => [CallReadFile (ctx_String ctx "policy"); CallParseConfig b]
      end ++ [CallAddServiceAccount (addRequest ctx buf)])%list,
     inl (Fatal {| cause := err; callTrace := [aliasedURL; account] |}
            "Unable to add a new service account"))).
  { destruct Hpolicy as [[Hflag ->] | (Hflag & b & -> & Hread & Hparse)].
    - two_args Hargs. rewrite Hconn, Hflag. cbn [String.eqb negb].
      rewrite Hadd. reflexivity.
    - apply String.eqb_neq in Hflag.
      two_args Hargs. rewrite Hconn, Hflag. cbn [negb].
      rewrite Hread, Hparse. cbn [probe_NewError]. rewrite Hadd. reflexivity. }
  split; [exact Hrun|]. rewrite Hrun. destruct buf; reflexivity.
Qed.

Lemma add_remote_failure_traces_arguments_witness :
  mainAdminUserSvcAcctAdd worldRemoteFails ctxBadPolicy =
    ([ CallNewAdminClient "myminio"; CallReadFile "policy.json";
       CallParseConfig [Byte.x7b; Byte.x7d];
       CallAddServiceAccount
         {| req_Policy := Some [Byte.x7b; Byte.x7d]; req_AccessKey := "";
            req_SecretKey := ""; req_TargetUser := "foobar" |} ],
     inl (Fatal {| cause := "access denied"; callTrace := ["myminio"; "foobar"] |}
            "Unable to add a new service account"))
  ∧ existsb isPrintMsg (fst (mainAdminUserSvcAcctAdd worldRemoteFails ctxBadPolicy)) = false.
Proof.
  apply (add_remote_failure_traces_arguments worldRemoteFails ctxBadPolicy
           "myminio" "foobar" failingClient (Some [Byte.x7b; Byte.x7d])
           "access denied").
  - reflexivity.
  - reflexivity.
  - right. split; [discriminate|].
    exists [Byte.x7b; Byte.x7d]. repeat split.
  - reflexivity.
Defined.

Example add_remote_failure_without_policy :
  mainAdminUserSvcAcctAdd worldRemoteFails ctxPlain =
    ([ CallNewAdminClient "myminio";
       CallAddServiceAccount
         {| req_Policy := None; req_AccessKey := ""; req_SecretKey := "";
            req_TargetUser := "foobar" |} ],
     inl (Fatal {| cause := "access denied"; callTrace := ["myminio"; "foobar"] |}
            "Unable to add a new service account")).
Proof. reflexivity. Qed.

(** X4. When the connection to the alias cannot be made, the add handler
    stops with "Unable to initialize admin connection." and the error of
    the connection: whatever the flags say, no policy file is read and no
    request is sent. *)
Theorem add_connection_failure_is_fatal
    (w : World) (ctx : Context) (aliasedURL account : string) (err : probeError) :
  Args ctx = [aliasedURL; account] →
  newAdminClient w aliasedURL = inl err →
  mainAdminUserSvcAcctAdd w ctx =
    ([CallNewAdminClient aliasedURL],
     inl (Fatal err "Unable to initialize admin connection.")).
Proof.
  intros Hargs Hconn. two_args Hargs. rewrite Hconn. reflexivity.
Qed.

Lemma add_connection_failure_is_fatal_witness :
  mainAdminUserSvcAcctAdd worldNoConnection ctxBadPolicy =
    ([CallNewAdminClient "myminio"],
     inl (Fatal {| cause := "no such alias"; callTrace := [] |}
            "Unable to initialize admin connection.")).
Proof.
  exact (add_connection_failure_is_fatal worldNoConnection ctxBadPolicy
           "myminio" "foobar" {| cause := "no such alias"; callTrace := [] |}
           eq_refl eq_refl).
Defined.

(** X5. Whatever the world and the command line, a request the add handler
    sends has the second argument as its target user and the values of the
    two key flags as its keys. Its policy is nil exactly when the policy
    flag is empty, and otherwise it is the contents of the file the flag
    names, which the parser has accepted. *)
Theorem add_request_in_every_run
    (w : World) (ctx : Context) (opts : AddServiceAccountReq) :
  CallAddServiceAccount opts ∈ fst (mainAdminUserSvcAcctAdd w ctx) →
  req_TargetUser opts = Args_Get (Args ctx) 1 ∧
  req_AccessKey opts = ctx_String ctx "access-key" ∧
  req_SecretKey opts = ctx_String ctx "secret-key" ∧
  match req_Policy opts with
  | None => ctx_String ctx "policy" = ""
  | Some buf =>
      ctx_String ctx "policy" ≠ "" ∧
      ReadFile w (ctx_String ctx "policy") = inr buf ∧
      ParseConfig w buf = None
  end.
Proof.
  run_handler. intros Hin.
  repeat case_match; simplify_eq; cbn [fst app] in Hin;
    repeat (apply elem_of_cons in Hin as [Hin|Hin]; [simplify_eq|]);
    try (by apply elem_of_nil in Hin);
    cbn [req_TargetUser req_AccessKey req_SecretKey req_Policy] in *;
    simplify_eq;
    repeat match goal with
    | E : negb (_ =? "") = true |- _ =>
        apply negb_true_iff, String.eqb_neq in E
    | E : negb (_ =? "") = false |- _ =>
        apply negb_false_iff, String.eqb_eq in E
    | E : probe_NewError ?o = None |- _ =>
        destruct o eqn:?; [discriminate E | clear E]
    end;
    repeat split; auto.
Qed.

Lemma add_request_in_every_run_witness :
  req_TargetUser
    {| req_Policy := None; req_AccessKey := "myaccess";
       req_SecretKey := "mysecret"; req_TargetUser := "foobar" |}
  = Args_Get (Args ctxKeys) 1.
Proof.
  refine (proj1 (add_request_in_every_run exampleWorld ctxKeys
    {| req_Policy := None; req_AccessKey := "myaccess";
       req_SecretKey := "mysecret"; req_TargetUser := "foobar" |} _)).
  vm_compute. apply list_elem_of_further, list_elem_of_here.
Defined.

(** X6. Both handlers print a message exactly when they return: a run that
    ends in a fatal error or in the help text has printed nothing, and a
    run that returns has printed. *)
Theorem handlers_print_iff_they_return (w : World) (ctx : Context) :
  existsb isPrintMsg (fst (mainAdminUserSvcAcctAdd w ctx))
    = returned (mainAdminUserSvcAcctAdd w ctx)
  ∧ existsb isPrintMsg (fst (mainAdminUserDisable w ctx))
    = returned (mainAdminUserDisable w ctx).
Proof.
  split; run_handler; unfold returned; repeat case_match; simplify_eq; reflexivity.
Qed.

(** X7. In one run a handler makes at most one remote call, and exactly one
    when it returns. *)
Theorem handlers_make_at_most_one_remote_call (w : World) (ctx : Context) :
  (length (List.filter isRemoteCall (fst (mainAdminUserSvcAcctAdd w ctx))) ≤ 1
   ∧ (snd (mainAdminUserSvcAcctAdd w ctx) = inr tt →
      length (List.filter isRemoteCall (fst (mainAdminUserSvcAcctAdd w ctx))) = 1))%nat
  ∧ (length (List.filter isRemoteCall (fst (mainAdminUserDisable w ctx))) ≤ 1
     ∧ (snd (mainAdminUserDisable w ctx) = inr tt →
        length (List.filter isRemoteCall (fst (mainAdminUserDisable w ctx))) = 1))%nat.
Proof.
  split; run_handler; repeat case_match; simplify_eq; cbn;
    (split; [lia | intros Hret; first [reflexivity | discriminate Hret]]).
Qed.

(** X8. When the remote side refuses to set the status, the disable handler
    stops with "Unable to disable user"; the error carries the remote
    error and all the positional arguments, and nothing is printed. *)
Theorem disable_remote_failure_traces_arguments
    (w : World) (ctx : Context) (aliasedURL account : string)
    (client : AdminClient) (err : error) :
  Args ctx = [aliasedURL; account] →
  newAdminClient w aliasedURL = inr client →
  SetUserStatus client account madmin_AccountDisabled = Some err →
  mainAdminUserDisable w ctx =
    ([ CallSetColor "UserMessage" FgGreen;
       CallNewAdminClient aliasedURL;
       CallSetUserStatus account madmin_AccountDisabled ],
     inl (Fatal {| cause := err; callTrace := [aliasedURL; account] |}
            "Unable to disable user")).
Proof.
  intros Hargs Hconn Hset. two_args Hargs. rewrite Hconn, Hset. reflexivity.
Qed.

Lemma disable_remote_failure_traces_arguments_witness :
  mainAdminUserDisable worldRemoteFails ctxPlain =
    ([ CallSetColor "UserMessage" FgGreen;
       CallNewAdminClient "myminio";
       CallSetUserStatus "foobar" madmin_AccountDisabled ],
     inl (Fatal {| cause := "no such user"; callTrace := ["myminio"; "foobar"] |}
            "Unable to disable user")).
Proof.
  exact (disable_remote_failure_traces_arguments worldRemoteFails ctxPlain
           "myminio" "foobar" failingClient "no such user"
           eq_refl eq_refl eq_refl).
Defined.

(** X9. When the connection to the alias cannot be made, the disable
    handler stops with "Unable to initialize admin connection." after it
    has set the colour of the message and before any remote call. *)
Theorem disable_connection_failure_is_fatal
    (w : World) (ctx : Context) (aliasedURL account : string) (err : probeError) :
  Args ctx = [aliasedURL; account] →
  newAdminClient w aliasedURL = inl err →
  mainAdminUserDisable w ctx =
    ([ CallSetColor "UserMessage" FgGreen; CallNewAdminClient aliasedURL ],
     inl (Fatal err "Unable to initialize admin connection.")).
Proof.
  intros Hargs Hconn. two_args Hargs. rewrite Hconn. reflexivity.
Qed.

Lemma disable_connection_failure_is_fatal_witness :
  mainAdminUserDisable worldNoConnection ctxPlain =
    ([ CallSetColor "UserMessage" FgGreen; CallNewAdminClient "myminio" ],
     inl (Fatal {| cause := "no such alias"; callTrace := [] |}
            "Unable to initialize admin connection.")).
Proof.
  exact (disable_connection_failure_is_fatal worldNoConnection ctxPlain
           "myminio" "foobar" {| cause := "no such alias"; callTrace := [] |}
           eq_refl eq_refl).
Defined.

(** X10. The disable handler returns exactly when it is given two
    arguments, the connection to the first is made, and the remote side
    accepts to disable the second. *)
Theorem disable_returns_iff (w : World) (ctx : Context) :
  snd (mainAdminUserDisable w ctx) = inr tt ↔
  length (Args ctx) = 2%nat ∧
  ∃ client : AdminClient,
    newAdminClient w (Args_Get (Args ctx) 0) = inr client ∧
    SetUserStatus client (Args_Get (Args ctx) 1) madmin_AccountDisabled = None.
Proof.
  run_handler.
  destruct (length (Args ctx) =? 2)%nat eqn:Hlen; cbn [negb].
  2: { apply Nat.eqb_neq in Hlen. cbn. split; [discriminate | tauto]. }
  apply Nat.eqb_eq in Hlen.
  destruct (newAdminClient w (Args_Get (Args ctx) 0)) as [err|client] eqn:Hconn.
  { cbn. split; [discriminate | intros (_ & client & Hc & _); discriminate]. }
  destruct (SetUserStatus client (Args_Get (Args ctx) 1) madmin_AccountDisabled)
    as [err|] eqn:Hset; cbn.
  - split; [discriminate | intros (_ & client' & Hc & Hs)]. congruence.
  - split; [eauto | reflexivity].
Qed.

(** X11. The add handler never ends in the help text: every exit it takes
    is a fatal error. The disable handler ends in the help text exactly
    when the number of arguments is not two. *)
Theorem exits_of_the_handlers (w : World) (ctx : Context) :
  (printsHelp <$> exitOf (mainAdminUserSvcAcctAdd w ctx)) ≠ Some true
  ∧ ((printsHelp <$> exitOf (mainAdminUserDisable w ctx)) = Some true
     ↔ length (Args ctx) ≠ 2%nat).
Proof.
  split.
  - run_handler. unfold exitOf.
    repeat case_match; cbn [snd] in *; simplify_eq; cbn; discriminate.
  - run_handler. unfold exitOf.
    destruct (length (Args ctx) =? 2)%nat eqn:Hlen; cbn [negb].
    + apply Nat.eqb_eq in Hlen.
      repeat case_match; cbn [snd] in *; simplify_eq; cbn;
        split; (discriminate || tauto).
    + apply Nat.eqb_neq in Hlen. cbn. tauto.
Qed.

(** X12. The add handler returns exactly when every step went through: two
    arguments, a connection to the first, a policy that is absent or reads
    and parses, and a request that the remote side accepts. *)
Theorem add_returns_iff (w : World) (ctx : Context) :
  snd (mainAdminUserSvcAcctAdd w ctx) = inr tt ↔
  length (Args ctx) = 2%nat ∧
  ∃ (client : AdminClient) (buf : option (list Byte.byte)) (creds : Credentials),
    newAdminClient w (Args_Get (Args ctx) 0) = inr client ∧
    policyResolved w ctx buf ∧
    AddServiceAccount client (addRequest ctx buf) = inr creds.
Proof.
  unfold policyResolved, addRequest. run_handler.
  destruct (length (Args ctx) =? 2)%nat eqn:Hlen; cbn [negb].
  2: { apply Nat.eqb_neq in Hlen. cbn. split; [discriminate | tauto]. }
  apply Nat.eqb_eq in Hlen.
  destruct (newAdminClient w (Args_Get (Args ctx) 0)) as [err|client] eqn:Hconn.
  { cbn. split; [discriminate | intros (_ & ? & ? & ? & ? & _); discriminate]. }
  destruct (ctx_String ctx "policy" =? "") eqn:Hpol; cbn [negb].
  - apply String.eqb_eq in Hpol.
    destruct (AddServiceAccount client _) as [err|creds] eqn:Hadd; cbn.
    + split; [discriminate|].
      intros (_ & client' & buf & creds & Hc & [[_ ->]|[Hne _]] & Ha);
        [congruence | contradiction].
    + split; [|reflexivity]. intros _. split; [exact Hlen|].
      exists client, None, creds. auto.
  - apply String.eqb_neq in Hpol.
    destruct (ReadFile w (ctx_String ctx "policy")) as [err|b] eqn:Hread.
    { cbn. split; [discriminate|].
      intros (_ & ? & ? & ? & _ & [[He _]|(_ & b & _ & Hb & _)] & _);
        [contradiction | discriminate]. }
    cbn. destruct (ParseConfig w b) as [err|] eqn:Hparse; cbn.
    { split; [discriminate|].
      intros (_ & ? & ? & ? & _ & [[He _]|(_ & b' & _ & Hb & Hp)] & _);
        [contradiction | congruence]. }
    destruct (AddServiceAccount client _) as [err|creds] eqn:Hadd; cbn.
    + split; [discriminate|].
      intros (_ & client' & buf & creds & Hc & [[He _]|(_ & b' & -> & Hb & Hp)] & Ha);
        [contradiction | congruence].
    + split; [|reflexivity]. intros _. split; [exact Hlen|].
      exists client, (Some b), creds. split; [reflexivity|]. split; [|exact Hadd].
      right. eauto.
Qed.



(** * Further properties of the renderers *)

(** X14. Only the add template shows the secret key: for every other tag,
    known or not, the human rendering of a message does not depend on its
    secret key. *)
Theorem String_shows_secret_key_only_for_add `{Console}
    (tag st ak sk sk' pu : string) (ip : bool) (po acs : string) (mo : list string) :
  tag ≠ "add" →
  svcAcctMessage_String
    {| op := tag; Status := st; AccessKey := ak; SecretKey := sk;
       ParentUser := pu; ImpliedPolicy := ip; Policy := po;
       AccountStatus := acs; MemberOf := mo |}
  = svcAcctMessage_String
    {| op := tag; Status := st; AccessKey := ak; SecretKey := sk';
       ParentUser := pu; ImpliedPolicy := ip; Policy := po;
       AccountStatus := acs; MemberOf := mo |}.
Proof.
  intros Hadd. apply String.eqb_neq in Hadd.
  unfold svcAcctMessage_String. cbn [op AccessKey SecretKey ParentUser
    ImpliedPolicy AccountStatus]. rewrite Hadd. reflexivity.
Qed.

Lemma String_shows_secret_key_only_for_add_witness :
  @svcAcctMessage_String plainConsole infoExample
  = @svcAcctMessage_String plainConsole
      {| op := "info"; Status := ""; AccessKey := "AKIAEXAMPLE"; SecretKey := "";
         ParentUser := "foobar"; ImpliedPolicy := true; Policy := "";
         AccountStatus := "enabled"; MemberOf := [] |}.
Proof.
  apply (@String_shows_secret_key_only_for_add plainConsole). discriminate.
Defined.

Example String_info_plain :
  @svcAcctMessage_String plainConsole infoExample
  = "AccessKey: AKIAEXAMPLE" +:+ nl +:+ "ParentUser: foobar" +:+ nl +:+
    "Status: enabled" +:+ nl +:+ "Policy: implied".
Proof. reflexivity. Qed.

Lemma omitempty_keys_sublist (key : string) (v : jvalue) :
  map fst (omitempty key v) `sublist_of` [key].
Proof.
  unfold omitempty. destruct (isEmptyValue v); cbn.
  - apply sublist_nil_l.
  - reflexivity.
Qed.

(** X16. The members of the JSON document come in the order the struct
    declares them, [status] first, each key at most once, and no key
    outside the eight the struct declares: the tag [op] is never written. *)
Theorem JSON_keys_in_declared_order (u : svcAcctMessage) :
  map fst (svcAcctMessage_JSON u) `sublist_of` declaredMembers
  ∧ NoDup (map fst (svcAcctMessage_JSON u))
  ∧ head (svcAcctMessage_JSON u) = Some ("status", JString "success")
  ∧ hasKey "op" (svcAcctMessage_JSON u) = false.
Proof.
  assert (Hsub : map fst (svcAcctMessage_JSON u) `sublist_of` declaredMembers).
  { rewrite JSON_is_marshal_with_status. unfold marshal, declaredMembers.
    rewrite !map_app.
    apply (sublist_app [_] [_]); [reflexivity|].
    repeat (apply (sublist_app _ [_]); [apply omitempty_keys_sublist|]).
    apply omitempty_keys_sublist. }
  split; [exact Hsub|]. split; [|split; [reflexivity|]].
  - eapply sublist_NoDup; [|exact Hsub].
    unfold declaredMembers. apply NoDup_ListNoDup.
    repeat (constructor; [cbn; intuition discriminate|]). constructor.
  - destruct u as [tag st ak sk pu ip po acs mo].
    destruct ak, sk, pu, ip, po, acs, mo; reflexivity.
Qed.
